(** * TAKT agentic system: orchestration engine and metrics engine

    A shallow embedding of [src/agents/*.py], [src/orchestrator.py],
    [src/config.py] and the metric computations of
    [src/services/data_service.py], with the properties of the design
    document stated over it.

    Python objects live in an explicit store: dictionaries and lists are
    mutable and shared by reference, so a method is a function from stores
    to an outcome (a value or a raised exception) and a new store. *)

From Stdlib Require Import QArith Lqa Permutation.
From stdpp Require Import base strings list.

Local Open Scope string_scope.
Local Open Scope list_scope.

(** ** Python values, objects and the store *)

Module Py.

Abbreviation loc := nat.

(** Immediate values and references to mutable objects. *)
Inductive val :=
| VNone
| VBool (b : bool)
| VInt (n : Z)
| VStr (s : string)
| VRef (l : loc).

(** A [dict] keeps its insertion order; keys of the modelled code are
    always strings. *)
Definition dict := list (string * val).

Inductive obj :=
| ODict (d : dict)
| OList (xs : list val).

Abbreviation heap := (list obj).

Inductive exn :=
| AttributeError (attr : string)
| KeyError (key : string)
| TypeError
| SystemError
| Unmodelled (library : string).

Inductive result (A : Type) :=
| Ok (a : A)
| Raise (e : exn).
Arguments Ok {A} a.
Arguments Raise {A} e.

(** Computations: the store is threaded, and it survives an exception. *)
Definition M (A : Type) : Type := heap -> result A * heap.

Definition ret {A} (a : A) : M A := fun h => (Ok a, h).

Definition bind {A B} (m : M A) (k : A -> M B) : M B :=
  fun h => match m h with
           | (Ok a, h') => k a h'
           | (Raise e, h') => (Raise e, h')
           end.

Definition raise {A} (e : exn) : M A := fun h => (Raise e, h).

Declare Scope py_scope.
Delimit Scope py_scope with py.
Notation "x <- m ;; k" := (bind m (fun x => k))
  (at level 100, m at next level, right associativity) : py_scope.
Notation "m ;; k" := (bind m (fun _ => k))
  (at level 100, right associativity) : py_scope.
Local Open Scope py_scope.

(** [d[k]] and [d[k] = v] on the entries of a dictionary. *)
Fixpoint dict_get (d : dict) (k : string) : option val :=
  match d with
  | [] => None
  | (k', v) :: d' => if decide (k' = k) then Some v else dict_get d' k
  end.

Fixpoint dict_set (d : dict) (k : string) (v : val) : dict :=
  match d with
  | [] => [(k, v)]
  | (k', v') :: d' =>
      if decide (k' = k) then (k, v) :: d' else (k', v') :: dict_set d' k v
  end.

(** A dictionary display [{k1: v1, ...}]: later duplicates overwrite. *)
Definition dict_of (kvs : list (string * val)) : dict :=
  fold_left (fun d kv => dict_set d (fst kv) (snd kv)) kvs [].

Definition alloc (o : obj) : M val :=
  fun h => (Ok (VRef (length h)), h ++ [o]).

Definition load (l : loc) : M obj :=
  fun h => match h !! l with
           | Some o => (Ok o, h)
           | None => (Raise SystemError, h)
           end.

Definition store (l : loc) (o : obj) : M unit :=
  fun h => (Ok tt, <[l := o]> h).

Definition new_dict (kvs : list (string * val)) : M val := alloc (ODict (dict_of kvs)).
Definition new_list (xs : list val) : M val := alloc (OList xs).

(** [x.copy()]: a shallow copy; only dictionaries and lists have it. *)
Definition copy (x : val) : M val :=
  match x with
  | VRef l =>
      o <- load l ;;
      alloc o
  | _ => raise (AttributeError "copy")
  end.

(** [x[k] = v] with a string key. *)
Definition setitem (x : val) (k : string) (v : val) : M unit :=
  match x with
  | VRef l =>
      o <- load l ;;
      match o with
      | ODict d => store l (ODict (dict_set d k v))
      | OList _ => raise TypeError
      end
  | _ => raise TypeError
  end.

(** [x[k]] with a string key. *)
Definition getitem (x : val) (k : string) : M val :=
  match x with
  | VRef l =>
      o <- load l ;;
      match o with
      | ODict d =>
          match dict_get d k with
          | Some v => ret v
          | None => raise (KeyError k)
          end
      | OList _ => raise TypeError
      end
  | _ => raise TypeError
  end.

(** [x.append(v)]. *)
Definition append (x : val) (v : val) : M unit :=
  match x with
  | VRef l =>
      o <- load l ;;
      match o with
      | OList xs => store l (OList (xs ++ [v]))
      | ODict _ => raise (AttributeError "append")
      end
  | _ => raise (AttributeError "append")
  end.

(** Truth value testing. *)
Definition truthy (x : val) : M bool :=
  match x with
  | VNone => ret false
  | VBool b => ret b
  | VInt n => ret (negb (Z.eqb n 0))
  | VStr s => ret (negb (String.eqb s ""))
  | VRef l =>
      o <- load l ;;
      match o with
      | ODict d => ret (negb (Nat.eqb (length d) 0))
      | OList xs => ret (negb (Nat.eqb (length xs) 0))
      end
  end.

(** The builtin [all] over an already evaluated list of values: it stops
    at the first false one. *)
Fixpoint all (xs : list val) : M val :=
  match xs with
  | [] => ret (VBool true)
  | x :: xs' =>
      b <- truthy x ;;
      if b then all xs' else ret (VBool false)
  end.

(** [for x in xs: body]. *)
Fixpoint for_each {A} (xs : list A) (body : A -> M unit) : M unit :=
  match xs with
  | [] => ret tt
  | x :: xs' => body x ;; for_each xs' body
  end.

(** A method whose body is [pass] returns [None]. *)
Definition pass : M val := ret VNone.

(** [self.m(...)] where neither the class nor [TaktAgent] defines [m]. *)
Definition no_attribute (m : string) : M val := raise (AttributeError m).

End Py.

Import Py.
Local Open Scope py_scope.

(** ** [config.py]: the agent roster *)

(** The value of [os.getenv]: a string, or [None] when the variable is
    not set. *)
Definition environ := string -> val.

Record config := {
  cfg_name : string;
  cfg_expertise : string;
  cfg_api_key : val;
  cfg_model : string
}.

(** The keys of [AGENT_CONFIGS], in the order of the source. *)
Inductive agent_key :=
| strategy_architect
| workflow_specialist
| scheduling_engineer
| data_analyst
| risk_controller
| implementation_specialist.

Definition key_name (k : agent_key) : string :=
  match k with
  | strategy_architect => "strategy_architect"
  | workflow_specialist => "workflow_specialist"
  | scheduling_engineer => "scheduling_engineer"
  | data_analyst => "data_analyst"
  | risk_controller => "risk_controller"
  | implementation_specialist => "implementation_specialist"
  end.

Definition all_keys : list agent_key :=
  [strategy_architect; workflow_specialist; scheduling_engineer;
   data_analyst; risk_controller; implementation_specialist].

Definition AGENT_CONFIGS (getenv : environ) (k : agent_key) : config :=
  match k with
  | strategy_architect =>
      {| cfg_name := "Dr. TAKT Strategy Architect";
         cfg_expertise := "Portfolio & Enterprise-Level TAKT Implementation";
         cfg_api_key := getenv "OPENAI_API_KEY";
         cfg_model := "gpt-4-turbo" |}
  | workflow_specialist =>
      {| cfg_name := "Dr. Workflow Optimization Specialist";
         cfg_expertise := "Process Efficiency & Flow Synchronization";
         cfg_api_key := getenv "ANTHROPIC_API_KEY";
         cfg_model := "claude-3" |}
  | scheduling_engineer =>
      {| cfg_name := "Dr. TAKT Scheduling & Resource Engineer";
         cfg_expertise := "Advanced Scheduling & Resource Allocation";
         cfg_api_key := getenv "GROQ_API_KEY";
         cfg_model := "mixtral-8x7b" |}
  | data_analyst =>
      {| cfg_name := "Dr. AI-Driven TAKT Data Analyst";
         cfg_expertise := "Predictive Analytics & AI Optimization";
         cfg_api_key := getenv "GOOGLE_API_KEY";
         cfg_model := "gemini-pro" |}
  | risk_controller =>
      {| cfg_name := "Dr. Risk & Variability Controller";
         cfg_expertise := "TAKT Risk Management & Adaptability";
         cfg_api_key := getenv "COHERE_API_KEY";
         cfg_model := "command" |}
  | implementation_specialist =>
      {| cfg_name := "Dr. Implementation & Training Specialist";
         cfg_expertise := "TAKT Adoption & Change Management";
         cfg_api_key := getenv "EMERGENCEAI_API_KEY";
         cfg_model := "emergence-latest" |}
  end.

(** ** [agents/base_agent.py] *)

(** An agent object: the attributes set by [__init__] and the two
    abstract methods, closed over [self] by the subclass that builds it. *)
Record TaktAgent := {
  name : string;
  expertise : string;
  api_key : val;
  model : string;
  analyze : val -> M val;
  validate : val -> M val
}.

(** [chain_of_thought]: the base analysis record.  The display evaluates
    its values left to right, so the three lists and the inner dictionary
    are allocated before the record itself. *)
Definition chain_of_thought (self_name self_expertise : string) (context : val) : M val :=
  reasoning_steps <- new_list [] ;;
  conclusions <- new_list [] ;;
  recommendations <- new_list [] ;;
  validation <- new_dict [] ;;
  new_dict [("agent_name", VStr self_name);
            ("expertise", VStr self_expertise);
            ("context", context);
            ("reasoning_steps", reasoning_steps);
            ("conclusions", conclusions);
            ("recommendations", recommendations);
            ("validation", validation);
            ("cross_validation_needed", VBool true)].

(** One cross-validation entry [{'validator': ..., 'validated': ...}]. *)
Definition cv_entry (validator : string) (validated : val) : dict :=
  dict_of [("validator", VStr validator); ("validated", validated)].

(** The body of the loop of [cross_validate], for one peer. *)
Definition cross_validate_step (self : TaktAgent) (analysis validated_analysis : val)
    (agent : TaktAgent) : M unit :=
  if decide (name agent <> name self) then
    validation <- validate agent analysis ;;
    results <- getitem validated_analysis "cross_validation_results" ;;
    entry <- alloc (ODict (cv_entry (name agent) validation)) ;;
    append results entry
  else ret tt.

Definition cross_validate (self : TaktAgent) (other_agents : list TaktAgent)
    (analysis : val) : M val :=
  validated_analysis <- copy analysis ;;
  results <- new_list [] ;;
  setitem validated_analysis "cross_validation_results" results ;;
  for_each other_agents (cross_validate_step self analysis validated_analysis) ;;
  ret validated_analysis.

(** The tail shared by the [analyze] method of every subclass: store the
    steps, then the conclusions and the recommendations drawn from them. *)
Definition finish_analysis (analysis : val) (steps : list val)
    (_generate_conclusions _generate_recommendations : val -> M val) : M val :=
  reasoning_steps <- new_list steps ;;
  setitem analysis "reasoning_steps" reasoning_steps ;;
  conclusions <- _generate_conclusions reasoning_steps ;;
  setitem analysis "conclusions" conclusions ;;
  recommendations <- _generate_recommendations reasoning_steps ;;
  setitem analysis "recommendations" recommendations ;;
  ret analysis.

(** A reasoning step of the shape
    [{'step': title, 'analysis': {k1: self.m1(context), k2: ..., k3: ...}}]:
    the three calls run in order, then the inner and the outer dictionary
    are built. *)
Definition step_display (title : string) (k1 : string) (m1 : M val)
    (k2 : string) (m2 : M val) (k3 : string) (m3 : M val) : M val :=
  v1 <- m1 ;;
  v2 <- m2 ;;
  v3 <- m3 ;;
  inner <- new_dict [(k1, v1); (k2, v2); (k3, v3)] ;;
  new_dict [("step", VStr title); ("analysis", inner)].

(** [validate] of every subclass: [all] of three criteria, each evaluated
    first (the list of criteria is a temporary of the method). *)
Definition validate_criteria (c1 c2 c3 : M val) : M val :=
  v1 <- c1 ;;
  v2 <- c2 ;;
  v3 <- c3 ;;
  all [v1; v2; v3].

(** ** The six agent classes

    In each class the methods that the source defines with body [pass]
    are [pass]; a helper that the source calls but defines neither in the
    class nor in [TaktAgent] is [no_attribute]. *)

Module StrategyArchitect.

Definition _define_objectives (context : val) : M val :=
  step_display "Define Objectives"
    "business_goals" (no_attribute "_extract_business_goals")
    "takt_objectives" (no_attribute "_define_takt_goals")
    "success_metrics" (no_attribute "_define_metrics").

Definition _analyze_current_state (context : val) : M val :=
  step_display "Current State Analysis"
    "workflow_assessment" (no_attribute "_assess_workflows")
    "performance_metrics" (no_attribute "_analyze_performance")
    "strategic_gaps" (no_attribute "_identify_gaps").

Definition _assess_takt_feasibility (context : val) : M val := pass.
Definition _develop_roadmap (context : val) : M val := pass.
Definition _predict_risks (context : val) : M val := pass.
Definition _align_frameworks (context : val) : M val := pass.
Definition _generate_conclusions (reasoning_steps : val) : M val := pass.
Definition _generate_recommendations (reasoning_steps : val) : M val := pass.
Definition _validate_strategic_alignment (analysis : val) : M val := pass.
Definition _validate_resource_feasibility (analysis : val) : M val := pass.
Definition _validate_implementation_timeline (analysis : val) : M val := pass.

Definition analyze (cfg : config) (context : val) : M val :=
  analysis <- chain_of_thought (cfg_name cfg) (cfg_expertise cfg) context ;;
  s1 <- _define_objectives context ;;
  s2 <- _analyze_current_state context ;;
  s3 <- _assess_takt_feasibility context ;;
  s4 <- _develop_roadmap context ;;
  s5 <- _predict_risks context ;;
  s6 <- _align_frameworks context ;;
  finish_analysis analysis [s1; s2; s3; s4; s5; s6]
    _generate_conclusions _generate_recommendations.

Definition validate (analysis : val) : M val :=
  validate_criteria
    (_validate_strategic_alignment analysis)
    (_validate_resource_feasibility analysis)
    (_validate_implementation_timeline analysis).

Definition new (cfg : config) : TaktAgent :=
  Build_TaktAgent (cfg_name cfg) (cfg_expertise cfg) (cfg_api_key cfg)
    (cfg_model cfg) (analyze cfg) validate.

End StrategyArchitect.

Module WorkflowSpecialist.

Definition _identify_bottlenecks (context : val) : M val :=
  step_display "Bottleneck Analysis"
    "process_mapping" (no_attribute "_map_processes")
    "bottleneck_points" (no_attribute "_detect_bottlenecks")
    "impact_assessment" (no_attribute "_assess_bottleneck_impact").

Definition _analyze_process_variability (context : val) : M val :=
  step_display "Process Variability Analysis"
    "cycle_time_analysis" (no_attribute "_analyze_cycle_times")
    "variance_patterns" (no_attribute "_identify_patterns")
    "root_causes" (no_attribute "_determine_root_causes").

Definition _optimize_workflows (context : val) : M val := pass.
Definition _structure_work_packages (context : val) : M val := pass.
Definition _validate_flow (context : val) : M val := pass.
Definition _simulate_workflows (context : val) : M val := pass.
Definition _generate_conclusions (reasoning_steps : val) : M val := pass.
Definition _generate_recommendations (reasoning_steps : val) : M val := pass.
Definition _validate_flow_efficiency (analysis : val) : M val := pass.
Definition _validate_resource_utilization (analysis : val) : M val := pass.
Definition _validate_cycle_times (analysis : val) : M val := pass.

Definition analyze (cfg : config) (context : val) : M val :=
  analysis <- chain_of_thought (cfg_name cfg) (cfg_expertise cfg) context ;;
  s1 <- _identify_bottlenecks context ;;
  s2 <- _analyze_process_variability context ;;
  s3 <- _optimize_workflows context ;;
  s4 <- _structure_work_packages context ;;
  s5 <- _validate_flow context ;;
  s6 <- _simulate_workflows context ;;
  finish_analysis analysis [s1; s2; s3; s4; s5; s6]
    _generate_conclusions _generate_recommendations.

Definition validate (analysis : val) : M val :=
  validate_criteria
    (_validate_flow_efficiency analysis)
    (_validate_resource_utilization analysis)
    (_validate_cycle_times analysis).

Definition new (cfg : config) : TaktAgent :=
  Build_TaktAgent (cfg_name cfg) (cfg_expertise cfg) (cfg_api_key cfg)
    (cfg_model cfg) (analyze cfg) validate.

End WorkflowSpecialist.

Module SchedulingEngineer.

Definition _analyze_project_complexity (context : val) : M val :=
  step_display "Project Complexity Analysis"
    "scope_assessment" (no_attribute "_assess_scope")
    "dependencies" (no_attribute "_identify_dependencies")
    "constraints" (no_attribute "_analyze_constraints").

(** [_compute_takt_time]: the division is guarded by
    [customer_demand > 0]; the quotient itself is a float, outside [val].
    Both operands come from helpers the class does not define. *)
Definition _compute_takt_time (context : val) : M val :=
  available_time <- no_attribute "_calculate_available_time" ;;
  customer_demand <- no_attribute "_analyze_demand" ;;
  match customer_demand with
  | VInt n => if (0 <? n)%Z then raise (Unmodelled "true division") else ret (VInt 0)
  | VBool b => if b then raise (Unmodelled "true division") else ret (VInt 0)
  | _ => raise TypeError
  end.

Definition _calculate_takt_time (context : val) : M val :=
  step_display "TAKT Time Calculation"
    "customer_demand" (no_attribute "_analyze_demand")
    "available_time" (no_attribute "_calculate_available_time")
    "takt_time" (_compute_takt_time context).

Definition _determine_resources (context : val) : M val :=
  step_display "Resource Determination"
    "crew_sizing" (no_attribute "_calculate_crew_size")
    "equipment_needs" (no_attribute "_determine_equipment")
    "material_requirements" (no_attribute "_calculate_materials").

Definition _sequence_tasks (context : val) : M val := pass.
Definition _prevent_overruns (context : val) : M val := pass.
Definition _adjust_variability (context : val) : M val := pass.
Definition _generate_conclusions (reasoning_steps : val) : M val := pass.
Definition _generate_recommendations (reasoning_steps : val) : M val := pass.
Definition _validate_schedule_feasibility (analysis : val) : M val := pass.
Definition _validate_resource_availability (analysis : val) : M val := pass.
Definition _validate_takt_time_calculations (analysis : val) : M val := pass.

Definition analyze (cfg : config) (context : val) : M val :=
  analysis <- chain_of_thought (cfg_name cfg) (cfg_expertise cfg) context ;;
  s1 <- _analyze_project_complexity context ;;
  s2 <- _calculate_takt_time context ;;
  s3 <- _determine_resources context ;;
  s4 <- _sequence_tasks context ;;
  s5 <- _prevent_overruns context ;;
  s6 <- _adjust_variability context ;;
  finish_analysis analysis [s1; s2; s3; s4; s5; s6]
    _generate_conclusions _generate_recommendations.

Definition validate (analysis : val) : M val :=
  validate_criteria
    (_validate_schedule_feasibility analysis)
    (_validate_resource_availability analysis)
    (_validate_takt_time_calculations analysis).

Definition new (cfg : config) : TaktAgent :=
  Build_TaktAgent (cfg_name cfg) (cfg_expertise cfg) (cfg_api_key cfg)
    (cfg_model cfg) (analyze cfg) validate.

End SchedulingEngineer.

Module DataAnalyst.

Definition _prepare_training_data (context : val) : M val := pass.

(** [len(x) == 0] for the values that have a length. *)
Definition len_is_zero (x : val) : M bool :=
  match x with
  | VStr s => ret (String.eqb s "")
  | VRef l =>
      o <- load l ;;
      match o with
      | ODict d => ret (Nat.eqb (length d) 0)
      | OList xs => ret (Nat.eqb (length xs) 0)
      end
  | _ => raise TypeError
  end.

(** [_train_predict_model]: without training data the step result is
    tagged [{'error': ...}]; with data the method hands over to the
    scikit-learn estimator, which is outside this development. *)
Definition _train_predict_model (context : val) : M val :=
  data <- _prepare_training_data context ;;
  insufficient <- match data with
                  | VNone => ret true
                  | _ => len_is_zero data
                  end ;;
  if (insufficient : bool)
  then new_dict [("error", VStr "Insufficient data for model training")]
  else raise (Unmodelled "sklearn").

Definition _collect_historical_data (context : val) : M val :=
  step_display "Historical Data Collection"
    "project_data" (no_attribute "_gather_project_data")
    "performance_metrics" (no_attribute "_collect_metrics")
    "patterns" (no_attribute "_identify_patterns").

Definition _predict_performance (context : val) : M val :=
  step_display "Performance Prediction"
    "model_results" (_train_predict_model context)
    "accuracy_metrics" (no_attribute "_evaluate_accuracy")
    "predictions" (no_attribute "_generate_predictions").

Definition _identify_risks (context : val) : M val := pass.
Definition _optimize_resources (context : val) : M val := pass.
Definition _automate_decisions (context : val) : M val := pass.
Definition _compare_scenarios (context : val) : M val := pass.
Definition _generate_conclusions (reasoning_steps : val) : M val := pass.
Definition _generate_recommendations (reasoning_steps : val) : M val := pass.
Definition _validate_data_quality (analysis : val) : M val := pass.
Definition _validate_model_performance (analysis : val) : M val := pass.
Definition _validate_predictions (analysis : val) : M val := pass.

Definition analyze (cfg : config) (context : val) : M val :=
  analysis <- chain_of_thought (cfg_name cfg) (cfg_expertise cfg) context ;;
  s1 <- _collect_historical_data context ;;
  s2 <- _predict_performance context ;;
  s3 <- _identify_risks context ;;
  s4 <- _optimize_resources context ;;
  s5 <- _automate_decisions context ;;
  s6 <- _compare_scenarios context ;;
  finish_analysis analysis [s1; s2; s3; s4; s5; s6]
    _generate_conclusions _generate_recommendations.

Definition validate (analysis : val) : M val :=
  validate_criteria
    (_validate_data_quality analysis)
    (_validate_model_performance analysis)
    (_validate_predictions analysis).

Definition new (cfg : config) : TaktAgent :=
  Build_TaktAgent (cfg_name cfg) (cfg_expertise cfg) (cfg_api_key cfg)
    (cfg_model cfg) (analyze cfg) validate.

End DataAnalyst.

Module RiskController.

Definition _assess_impact_level (context : val) (risk_type : string) : M val := pass.

(** One entry of [_categorize_risks]: the list of factors is allocated
    before the impact level is assessed. *)
Definition risk_category (context : val) (category : string) (f1 f2 : string)
    (risk_type : string) : M val :=
  factors <- new_list [VStr f1; VStr f2] ;;
  impact_level <- _assess_impact_level context risk_type ;;
  new_dict [("category", VStr category); ("factors", factors);
            ("impact_level", impact_level)].

Definition _categorize_risks (context : val) : M val :=
  weather <- risk_category context "Weather Risks"
               "seasonal weather patterns" "extreme weather events" "weather" ;;
  supply <- risk_category context "Supply Chain Risks"
               "material delays" "supplier reliability" "supply_chain" ;;
  labor <- risk_category context "Labor Risks"
               "workforce availability" "skill requirements" "labor" ;;
  technical <- risk_category context "Technical Risks"
               "equipment reliability" "technical complexity" "technical" ;;
  new_list [weather; supply; labor; technical].

Definition _identify_project_risks (context : val) : M val :=
  step_display "Project Risk Identification"
    "risk_categories" (_categorize_risks context)
    "risk_factors" (no_attribute "_identify_risk_factors")
    "impact_assessment" (no_attribute "_assess_risk_impact").

Definition _analyze_historical_variability (context : val) : M val :=
  step_display "Historical Variability Analysis"
    "past_disruptions" (no_attribute "_analyze_disruptions")
    "variability_patterns" (no_attribute "_identify_patterns")
    "lessons_learned" (no_attribute "_extract_lessons").

Definition _develop_contingency_plans (context : val) : M val := pass.
Definition _implement_risk_mitigation (context : val) : M val := pass.
Definition _monitor_risk_indicators (context : val) : M val := pass.
Definition _adjust_takt_plans (context : val) : M val := pass.
Definition _generate_conclusions (reasoning_steps : val) : M val := pass.
Definition _generate_recommendations (reasoning_steps : val) : M val := pass.
Definition _validate_risk_assessment (analysis : val) : M val := pass.
Definition _validate_mitigation_strategies (analysis : val) : M val := pass.
Definition _validate_contingency_plans (analysis : val) : M val := pass.

Definition analyze (cfg : config) (context : val) : M val :=
  analysis <- chain_of_thought (cfg_name cfg) (cfg_expertise cfg) context ;;
  s1 <- _identify_project_risks context ;;
  s2 <- _analyze_historical_variability context ;;
  s3 <- _develop_contingency_plans context ;;
  s4 <- _implement_risk_mitigation context ;;
  s5 <- _monitor_risk_indicators context ;;
  s6 <- _adjust_takt_plans context ;;
  finish_analysis analysis [s1; s2; s3; s4; s5; s6]
    _generate_conclusions _generate_recommendations.

Definition validate (analysis : val) : M val :=
  validate_criteria
    (_validate_risk_assessment analysis)
    (_validate_mitigation_strategies analysis)
    (_validate_contingency_plans analysis).

Definition new (cfg : config) : TaktAgent :=
  Build_TaktAgent (cfg_name cfg) (cfg_expertise cfg) (cfg_api_key cfg)
    (cfg_model cfg) (analyze cfg) validate.

End RiskController.

Module ImplementationSpecialist.

(** One entry of [_design_modules]. *)
Definition training_module (title audience duration : string) (c1 c2 c3 : string) : M val :=
  content <- new_list [VStr c1; VStr c2; VStr c3] ;;
  new_dict [("module", VStr title); ("target_audience", VStr audience);
            ("duration", VStr duration); ("content", content)].

Definition _design_modules (context : val) : M val :=
  fundamentals <- training_module "TAKT Fundamentals" "All Staff" "4 hours"
      "Introduction to TAKT Planning" "Basic Principles and Concepts"
      "Benefits and Applications" ;;
  advanced <- training_module "Advanced TAKT Planning" "Project Managers" "8 hours"
      "TAKT Time Calculation" "Resource Optimization" "Schedule Integration" ;;
  implementation <- training_module "TAKT Implementation" "Field Supervisors" "6 hours"
      "Daily Planning and Control" "Team Coordination" "Problem Solving" ;;
  new_list [fundamentals; advanced; implementation].

Definition _assess_organizational_readiness (context : val) : M val :=
  step_display "Organizational Readiness Assessment"
    "current_capabilities" (no_attribute "_assess_capabilities")
    "training_needs" (no_attribute "_identify_training_needs")
    "cultural_factors" (no_attribute "_analyze_culture").

Definition _develop_training_modules (context : val) : M val :=
  step_display "Training Module Development"
    "module_structure" (_design_modules context)
    "learning_objectives" (no_attribute "_define_objectives")
    "delivery_methods" (no_attribute "_determine_methods").

Definition _design_change_management (context : val) : M val := pass.
Definition _customize_stakeholder_training (context : val) : M val := pass.
Definition _implement_feedback_system (context : val) : M val := pass.
Definition _measure_adoption_success (context : val) : M val := pass.
Definition _generate_conclusions (reasoning_steps : val) : M val := pass.
Definition _generate_recommendations (reasoning_steps : val) : M val := pass.
Definition _validate_training_effectiveness (analysis : val) : M val := pass.
Definition _validate_change_management (analysis : val) : M val := pass.
Definition _validate_adoption_metrics (analysis : val) : M val := pass.

Definition analyze (cfg : config) (context : val) : M val :=
  analysis <- chain_of_thought (cfg_name cfg) (cfg_expertise cfg) context ;;
  s1 <- _assess_organizational_readiness context ;;
  s2 <- _develop_training_modules context ;;
  s3 <- _design_change_management context ;;
  s4 <- _customize_stakeholder_training context ;;
  s5 <- _implement_feedback_system context ;;
  s6 <- _measure_adoption_success context ;;
  finish_analysis analysis [s1; s2; s3; s4; s5; s6]
    _generate_conclusions _generate_recommendations.

Definition validate (analysis : val) : M val :=
  validate_criteria
    (_validate_training_effectiveness analysis)
    (_validate_change_management analysis)
    (_validate_adoption_metrics analysis).

Definition new (cfg : config) : TaktAgent :=
  Build_TaktAgent (cfg_name cfg) (cfg_expertise cfg) (cfg_api_key cfg)
    (cfg_model cfg) (analyze cfg) validate.

End ImplementationSpecialist.

(** The class that goes with each key of the roster. *)
Definition instantiate (k : agent_key) (cfg : config) : TaktAgent :=
  match k with
  | strategy_architect => StrategyArchitect.new cfg
  | workflow_specialist => WorkflowSpecialist.new cfg
  | scheduling_engineer => SchedulingEngineer.new cfg
  | data_analyst => DataAnalyst.new cfg
  | risk_controller => RiskController.new cfg
  | implementation_specialist => ImplementationSpecialist.new cfg
  end.

(** ** [orchestrator.py] *)

Module TaktOrchestrator.

(** [self.agents]: a dictionary from roster keys to agent objects, in
    insertion order.  An orchestrator holds nothing else but a logger, so
    it is identified with its roster, and [TaktOrchestrator()] is the
    roster [_initialize_agents] returns. *)
Abbreviation roster := (list (string * TaktAgent)).

(** [_initialize_agents]: the source instantiates the strategy architect
    only ("other agents will be initialized here as they are
    implemented"). *)
Definition _initialize_agents (getenv : environ) : roster :=
  [("strategy_architect",
    StrategyArchitect.new (AGENT_CONFIGS getenv strategy_architect))].

(** The roster with all six classes of [AGENT_CONFIGS] instantiated; the
    source does not build it. *)
Definition full_roster (getenv : environ) : roster :=
  map (fun k => (key_name k, instantiate k (AGENT_CONFIGS getenv k))) all_keys.

Fixpoint roster_get (agents : roster) (k : string) : option TaktAgent :=
  match agents with
  | [] => None
  | (k', a) :: rest => if decide (k' = k) then Some a else roster_get rest k
  end.

(** [[a for n, a in self.agents.items() if n != agent_name]] *)
Definition others (agents : roster) (agent_name : string) : list TaktAgent :=
  map snd (filter (fun na => fst na <> agent_name) agents).

(** The entries of a dictionary object, for [d.items()]. *)
Definition items (x : val) : M dict :=
  match x with
  | VRef l =>
      o <- load l ;;
      match o with
      | ODict d => ret d
      | OList _ => raise (AttributeError "items")
      end
  | _ => raise (AttributeError "items")
  end.

(** The body of the loop of [_cross_validate_analyses], for one entry of
    [analyses]. *)
Definition cross_validate_entry (agents : roster) (validated_analyses : val)
    (entry : string * val) : M unit :=
  let '(agent_name, analysis) := entry in
  let other_agents := others agents agent_name in
  match roster_get agents agent_name with
  | Some agent =>
      validated <- cross_validate agent other_agents analysis ;;
      setitem validated_analyses agent_name validated
  | None => raise (KeyError agent_name)
  end.

Definition _cross_validate_analyses (agents : roster) (analyses : val) : M val :=
  validated_analyses <- new_dict [] ;;
  entries <- items analyses ;;
  for_each entries (cross_validate_entry agents validated_analyses) ;;
  ret validated_analyses.

Definition _extract_strategic_recommendations (analyses : val) : M val := pass.
Definition _create_implementation_plan (analyses : val) : M val := pass.
Definition _compile_risk_mitigation (analyses : val) : M val := pass.
Definition _define_success_metrics (analyses : val) : M val := pass.

Definition _synthesize_recommendations (validated_analyses : val) : M val :=
  strategic <- _extract_strategic_recommendations validated_analyses ;;
  plan <- _create_implementation_plan validated_analyses ;;
  risk <- _compile_risk_mitigation validated_analyses ;;
  metrics <- _define_success_metrics validated_analyses ;;
  new_dict [("strategic_recommendations", strategic);
            ("implementation_plan", plan);
            ("risk_mitigation", risk);
            ("success_metrics", metrics)].

(** The body of the first loop of [analyze_project], for one agent. *)
Definition collect_analysis (analyses project_context : val)
    (entry : string * TaktAgent) : M unit :=
  let '(agent_name, agent) := entry in
  analysis <- analyze agent project_context ;;
  setitem analyses agent_name analysis.

Definition analyze_project (agents : roster) (project_context : val) : M val :=
  analyses <- new_dict [] ;;
  for_each agents (collect_analysis analyses project_context) ;;
  validated_analyses <- _cross_validate_analyses agents analyses ;;
  final_recommendations <- _synthesize_recommendations validated_analyses ;;
  new_dict [("individual_analyses", validated_analyses);
            ("synthesized_recommendations", final_recommendations);
            ("project_context", project_context)].

End TaktOrchestrator.

(** ** Numbers of the metrics engine

    A [REAL] column read into a data frame holds float64 values.  They are
    idealised here: finite values are exact rationals, kept in lowest
    terms by every operation, and the three special values follow the
    IEEE 754 rules (a [NULL] of the store reads as [NaN]).  Rounding is
    not part of the model. *)

Module Float.

Inductive float :=
| Num (q : Q)
| PosInf
| NegInf
| NaN.

Definition of_nat (n : nat) : float := Num (inject_Z (Z.of_nat n)).

Definition isnan (x : float) : bool :=
  match x with NaN => true | _ => false end.

Definition isinf (x : float) : bool :=
  match x with PosInf | NegInf => true | _ => false end.

Definition isfinite (x : float) : bool :=
  match x with Num _ => true | _ => false end.

Definition neg (x : float) : float :=
  match x with
  | Num q => Num (Qred (- q))
  | PosInf => NegInf
  | NegInf => PosInf
  | NaN => NaN
  end.

Definition add (x y : float) : float :=
  match x, y with
  | NaN, _ | _, NaN => NaN
  | PosInf, NegInf | NegInf, PosInf => NaN
  | PosInf, _ | _, PosInf => PosInf
  | NegInf, _ | _, NegInf => NegInf
  | Num p, Num q => Num (Qred (p + q))
  end.

Definition sub (x y : float) : float := add x (neg y).

(** The sign of a rational: [Gt] positive, [Lt] negative, [Eq] zero. *)
Definition sign (q : Q) : comparison := (q ?= 0)%Q.

Definition signed_inf (s : comparison) : float :=
  match s with Gt => PosInf | Lt => NegInf | Eq => NaN end.

Definition mul (x y : float) : float :=
  match x, y with
  | NaN, _ | _, NaN => NaN
  | Num p, Num q => Num (Qred (p * q))
  | PosInf, Num q | Num q, PosInf => signed_inf (sign q)
  | NegInf, Num q | Num q, NegInf => signed_inf (CompOpp (sign q))
  | PosInf, PosInf | NegInf, NegInf => PosInf
  | PosInf, NegInf | NegInf, PosInf => NegInf
  end.

(** Division of float64 arrays does not raise: a zero divisor gives an
    infinity, or [NaN] for [0/0]. *)
Definition div (x y : float) : float :=
  match x, y with
  | NaN, _ | _, NaN => NaN
  | Num p, Num q =>
      match sign q with
      | Eq => signed_inf (sign p)
      | _ => Num (Qred (p / q))
      end
  | Num _, (PosInf | NegInf) => Num 0
  | PosInf, Num q => match sign q with Lt => NegInf | _ => PosInf end
  | NegInf, Num q => match sign q with Lt => PosInf | _ => NegInf end
  | (PosInf | NegInf), (PosInf | NegInf) => NaN
  end.

(** [x <= y] and [x < y]: false as soon as one side is [NaN]. *)
Definition leb (x y : float) : bool :=
  match x, y with
  | NaN, _ | _, NaN => false
  | NegInf, _ => true
  | _, PosInf => true
  | Num p, Num q => Qle_bool p q
  | _, _ => false
  end.

Definition ltb (x y : float) : bool :=
  match x, y with
  | NaN, _ | _, NaN => false
  | Num p, Num q => negb (Qle_bool q p)
  | PosInf, _ => false
  | _, NegInf => false
  | _, _ => true
  end.

(** [numpy.sqrt]: the rationals are not closed under square roots, so a
    root stays a formal radical [Sqrt v]; [MinusRoot a r b] stands for
    [a - r * b] with finite constants [a] and [b], and [Plain x] for a
    number without a root. *)
Inductive root :=
| Sqrt (radicand : float).

Inductive rooted :=
| Plain (x : float)
| MinusRoot (a : Q) (r : root) (b : Q).

(** [sqrt v] is [NaN] for a [NaN] or negative radicand and infinite for
    [+inf]. *)
Definition rooted_isnan (r : rooted) : bool :=
  match r with
  | Plain x => isnan x
  | MinusRoot a (Sqrt v) b =>
      match v with
      | NaN | NegInf => true
      | Num q => negb (Qle_bool 0 q)
      | PosInf => Qeq_bool b 0
      end
  end.

Definition rooted_isfinite (r : rooted) : bool :=
  match r with
  | Plain x => isfinite x
  | MinusRoot a (Sqrt v) b =>
      match v with
      | Num q => Qle_bool 0 q
      | _ => false
      end
  end.

End Float.

(** ** [services/data_service.py]: the metric computations *)

Module TaktDataService.

Import Float.

(** One row of the frame returned by [get_takt_metrics]. *)
Record DurationRecord := {
  timestamp : string;
  work_package : string;
  planned_duration : float;
  actual_duration : float;
  variance : float;
  bottleneck_factor : float
}.

(** A data frame is the list of its rows; [data.empty] holds when there
    is none ([is_empty]). *)
Definition DataFrame := list DurationRecord.

Definition is_empty (data : DataFrame) : bool :=
  match data with [] => true | _ => false end.

(** *** The pandas operations the engine uses *)

(** [Series.sum()]: missing values are skipped, the rest is added from
    left to right starting at zero. *)
Definition dropna (xs : list float) : list float :=
  List.filter (fun x => negb (isnan x)) xs.

Definition series_sum (xs : list float) : float :=
  fold_left add (dropna xs) (Num 0).

(** [Series.mean()] of a boolean series: the share of [True]. *)
Definition count_true (bs : list bool) : nat :=
  length (List.filter (fun b => b) bs).

Definition mean_bool (bs : list bool) : float :=
  div (of_nat (count_true bs)) (of_nat (length bs)).

(** [nanops.nanvar]: the missing values are masked; with no more
    observations than [ddof] the result is [NaN]. *)
Definition nanvar (ddof : nat) (xs : list float) : float :=
  let values := dropna xs in
  let count := length values in
  if (count <=? ddof)%nat then NaN
  else
    let avg := div (fold_left add values (Num 0)) (of_nat count) in
    let sqr := map (fun x => let d := sub avg x in mul d d) values in
    div (fold_left add sqr (Num 0)) (of_nat (count - ddof)).

(** [Series.std()]: the square root of the sample variance ([ddof=1]). *)
Definition std (xs : list float) : root := Sqrt (nanvar 1 xs).

(** [Series.rolling(window).mean()] with the default [min_periods =
    window]: an entry is the mean of the last [window] values when that
    many exist and all are observations, and [NaN] otherwise.  The window
    code first turns infinities into [NaN]. *)
Definition prep_value (x : float) : float := if isinf x then NaN else x.

(** The values in the window that ends at position [i]. *)
Definition window_at (window : nat) (values : list float) (i : nat) : list float :=
  skipn (S i - window) (firstn (S i) values).

Definition window_mean (window : nat) (w : list float) : float :=
  if (length (dropna w) <? window)%nat then NaN
  else div (fold_left add w (Num 0)) (of_nat window).

Definition rolling_mean (window : nat) (xs : list float) : list float :=
  let values := map prep_value xs in
  map (fun i => window_mean window (window_at window values i))
      (seq 0 (length xs)).

(** [s.iloc[0]] and [s.iloc[-1]] of a series that is not empty. *)
Definition iloc_first (xs : list float) : float := hd NaN xs.
Definition iloc_last (xs : list float) : float := List.last xs NaN.

(** *** [_calculate_takt_adherence] *)

Record takt_adherence := {
  average_adherence : float;
  stability_index : rooted
}.

Definition variance_ratio (data : DataFrame) : list float :=
  map (fun r => div (actual_duration r) (planned_duration r)) data.

Definition adherence_flags (data : DataFrame) : list bool :=
  map (fun x => leb x (Num (11 # 10))) (variance_ratio data).

Definition _calculate_takt_adherence (data : DataFrame) : takt_adherence :=
  if is_empty data then
    {| average_adherence := Num 0; stability_index := Plain (Num 0) |}
  else
    {| average_adherence := mul (mean_bool (adherence_flags data)) (Num 100);
       stability_index := MinusRoot 100 (std (variance_ratio data)) 100 |}.

(** *** [_calculate_flow_efficiency] *)

Record flow_metrics := {
  flow_efficiency : float;
  waste_percentage : float
}.

Definition _calculate_flow_efficiency (data : DataFrame) : flow_metrics :=
  if is_empty data then
    {| flow_efficiency := Num 0; waste_percentage := Num 0 |}
  else
    let total_time := series_sum (map actual_duration data) in
    let value_added_time :=
      series_sum (map actual_duration
             (List.filter (fun r => leb (variance r) (Num 0)) data)) in
    let flow_efficiency :=
      if ltb (Num 0) total_time
      then mul (div value_added_time total_time) (Num 100)
      else Num 0 in
    {| flow_efficiency := flow_efficiency;
       waste_percentage := sub (Num 100) flow_efficiency |}.

(** *** [_analyze_variance_trends] *)

Inductive trend_label := Improving | Degrading | No_data.

Definition trend_text (t : trend_label) : string :=
  match t with
  | Improving => "Improving"
  | Degrading => "Degrading"
  | No_data => "No data"
  end.

Record variance_trends := {
  trend : trend_label;
  pattern : option (list float)
}.

Definition _analyze_variance_trends (data : DataFrame) : variance_trends :=
  if is_empty data then
    {| trend := No_data; pattern := None |}
  else
    let variance_series := rolling_mean 5 (map variance data) in
    let trend :=
      if ltb (iloc_last variance_series) (iloc_first variance_series)
      then Improving else Degrading in
    {| trend := trend; pattern := Some variance_series |}.

End TaktDataService.

(** ** Vocabulary of the statements *)

(** An environment in which no API key is set. *)
Definition env_unset : environ := fun _ => VNone.

(** The agents the program can build: an instance of one of the six
    classes. *)
Definition is_variant (a : TaktAgent) : Prop :=
  exists k cfg, a = instantiate k cfg.

(** An agent whose [validate] answers [False] and leaves the store as it
    is; every class of the program is one. *)
Definition rejects (a : TaktAgent) : Prop :=
  forall x h, validate a x h = (Ok (VBool false), h).


Definition cvr : string := "cross_validation_results".

(** The peers [cross_validate] asks: those whose name differs from the
    name of the validated agent, in iteration order. *)
Definition peers_of (self : TaktAgent) (other_agents : list TaktAgent) : list TaktAgent :=
  filter (fun a => name a <> name self) other_agents.

(** The store during [cross_validate] called on the store [h0]: the copy
    of the analysis, the list of results, then the entries appended so
    far, each a dictionary of its own. *)
Definition cv_heap (h0 : heap) (d' : dict) (done : list dict) : heap :=
  h0 ++ [ODict d'; OList (map VRef (seq (S (S (length h0))) (length done)))]
     ++ map ODict done.

(** Reading a list of dictionaries back from the store. *)
Fixpoint read_dicts (h : heap) (refs : list val) : option (list dict) :=
  match refs with
  | [] => Some []
  | VRef l :: rest =>
      match h !! l, read_dicts h rest with
      | Some (ODict e), Some es => Some (e :: es)
      | _, _ => None
      end
  | _ :: _ => None
  end.

(** [x['cross_validation_results']] as the list of its entries. *)
Definition cross_validation_results (h : heap) (x : val) : option (list dict) :=
  match x with
  | VRef l =>
      match h !! l with
      | Some (ODict d) =>
          match dict_get d cvr with
          | Some (VRef lr) =>
              match h !! lr with
              | Some (OList refs) => read_dicts h refs
              | _ => None
              end
          | _ => None
          end
      | _ => None
      end
  | _ => None
  end.



Import TaktOrchestrator.


(** A store holding the analysis of one agent, with one recommendation,
    and the dictionary of analyses that files it under its key. *)
Definition sample_analysis : dict :=
  [("agent_name", VStr "Dr. TAKT Strategy Architect");
   ("recommendations", VRef 0);
   ("cross_validation_results", VRef 2)].

Definition sample_validated : heap :=
  [OList [VStr "Level the crew sizes across zones"];
   ODict sample_analysis;
   OList [];
   ODict [("strategy_architect", VRef 1)]].

(** An agent whose [validate] raises. *)
Definition faulty_validator : TaktAgent :=
  Build_TaktAgent "Faulty" "None" VNone "none"
    (fun _ => raise TypeError) (fun _ => raise (KeyError "recommendations")).

(** The strategy architect of the roster. *)
Definition architect : TaktAgent :=
  StrategyArchitect.new (AGENT_CONFIGS env_unset strategy_architect).

(** [x[k]] read from the store, for a dictionary [x]. *)
Definition item (h : heap) (x : val) (k : string) : option val :=
  match x with
  | VRef l =>
      match h !! l with
      | Some (ODict d) => dict_get d k
      | _ => None
      end
  | _ => None
  end.



(** A validated analysis at [r] in the store: the dictionary, the list of
    its results right after it, then the entries. *)
Definition cv_block (h : heap) (r : loc) (es : list dict) : Prop :=
  (exists d', h !! r = Some (ODict d') /\ dict_get d' cvr = Some (VRef (S r))) /\
  h !! S r = Some (OList (map VRef (seq (S (S r)) (length es)))) /\
  forall i e, es !! i = Some e -> h !! (S (S r) + i) = Some (ODict e).



(** *** Metrics *)

(** The sum of a list of rationals. *)
Definition Qsum (qs : list Q) : Q := fold_right Qplus 0%Q qs.

(** A duration record as the ingestion writes it: the variance is
    [actual - planned] and the bottleneck factor [actual / planned]. *)
Definition duration (wp : string) (planned actual : Q) : TaktDataService.DurationRecord :=
  {| TaktDataService.timestamp := "2024-01-01 00:00:00";
     TaktDataService.work_package := wp;
     TaktDataService.planned_duration := Float.Num planned;
     TaktDataService.actual_duration := Float.Num actual;
     TaktDataService.variance := Float.Num (Qred (actual - planned));
     TaktDataService.bottleneck_factor := Float.div (Float.Num actual) (Float.Num planned) |}.


(** The records that keep the pace: [actual / planned <= 1.1]. *)
Definition adherent (r : TaktDataService.DurationRecord) : bool :=
  Float.leb (Float.div (TaktDataService.actual_duration r)
                       (TaktDataService.planned_duration r))
            (Float.Num (11 # 10)).

Definition count_adherent (data : TaktDataService.DataFrame) : nat :=
  length (List.filter adherent data).

(** The sample variance of at least two rationals: the squared distances
    to the mean, summed and divided by [n - 1]. *)
Definition Qmean (qs : list Q) : Q := (Qsum qs / inject_Z (Z.of_nat (length qs)))%Q.



(** *** Further vocabulary *)

(** Values that are not references: [None], booleans, integers, strings. *)
Definition is_immediate (x : val) : Prop :=
  match x with VRef _ => False | _ => True end.

(** The helper each class calls first without defining it. *)
Definition missing_helper (k : agent_key) : string :=
  match k with
  | strategy_architect => "_extract_business_goals"
  | workflow_specialist => "_map_processes"
  | scheduling_engineer => "_assess_scope"
  | data_analyst => "_gather_project_data"
  | risk_controller => "_identify_risk_factors"
  | implementation_specialist => "_assess_capabilities"
  end.



(** ** [services/data_service.py]: the other metric computations *)

Module TaktDataServiceExt.

Import Float TaktDataService.

(** *** [_analyze_bottlenecks] *)

(** One reported bottleneck: [{'work_package', 'bottleneck_factor',
    'impact'}]. *)
Record bottleneck := {
  bottleneck_package : string;
  bottleneck_value : float;
  impact : float
}.

Definition is_bottleneck (r : DurationRecord) : bool :=
  ltb (Num (12 # 10)) (bottleneck_factor r).

Definition report (row : DurationRecord) : bottleneck :=
  {| bottleneck_package := work_package row;
     bottleneck_value := bottleneck_factor row;
     impact := variance row |}.

Definition _analyze_bottlenecks (data : DataFrame) : list bottleneck :=
  if is_empty data then []
  else
    let bottlenecks := List.filter is_bottleneck data in
    map report bottlenecks.

(** *** [_calculate_predictive_metrics] *)

(** The methods of this part either return or raise [ValueError]. *)
Inductive outcome (A : Type) :=
| Returned (a : A)
| ValueError (message : string).
Arguments Returned {A} a.
Arguments ValueError {A} message.

(** [LinearRegression] checks its input: a [NaN] or an infinity in [y]
    is refused.  [finite_values] gives the rationals of a column that
    passes. *)
Fixpoint finite_values (ys : list float) : option (list Q) :=
  match ys with
  | [] => Some []
  | Num q :: rest =>
      match finite_values rest with
      | Some qs => Some (q :: qs)
      | None => None
      end
  | _ :: _ => None
  end.

(** [np.arange(n)] *)
Definition arange (n : nat) : list Q := map (fun i => inject_Z (Z.of_nat i)) (seq 0 n).

(** The fitted line.  [fit] centres both columns and solves the least
    squares problem; when the centred [X] is zero (one sample) the
    solution of least norm has slope 0. *)
Record linear_model := {
  coef : Q;
  intercept : Q
}.

Definition fit (xs ys : list Q) : linear_model :=
  let x_offset := Qmean xs in
  let y_offset := Qmean ys in
  let sxx := Qsum (map (fun x => (x - x_offset) * (x - x_offset))%Q xs) in
  let sxy := Qsum (map (fun xy => (fst xy - x_offset) * (snd xy - y_offset))%Q
                       (combine xs ys)) in
  let slope := if Qeq_bool sxx 0 then 0%Q else (sxy / sxx)%Q in
  {| coef := slope; intercept := (y_offset - x_offset * slope)%Q |}.

Definition predict (model : linear_model) (x : Q) : Q :=
  (x * coef model + intercept model)%Q.

(** [model.score]: the coefficient of determination of the fitted values,
    undefined ([NaN]) with fewer than two samples; with a constant [y]
    it is 1 for a perfect fit and 0 otherwise. *)
Definition score (model : linear_model) (xs ys : list Q) : float :=
  if (length ys <? 2)%nat then NaN
  else
    let y_mean := Qmean ys in
    let numerator := Qsum (map (fun xy => (snd xy - predict model (fst xy))
                                          * (snd xy - predict model (fst xy)))%Q
                               (combine xs ys)) in
    let denominator := Qsum (map (fun y => (y - y_mean) * (y - y_mean))%Q ys) in
    if Qeq_bool denominator 0
    then (if Qeq_bool numerator 0 then Num 1 else Num 0)
    else Num (Qred (1 - numerator / denominator)).

Record predictive := {
  prediction : option float;
  confidence : float
}.

Definition _calculate_predictive_metrics (data : DataFrame) : outcome predictive :=
  if is_empty data then
    Returned {| prediction := None; confidence := Num 0 |}
  else
    let X := arange (length data) in
    match finite_values (map variance data) with
    | None => ValueError "Input y contains NaN or infinity"
    | Some y =>
        let model := fit X y in
        let next_point := predict model (inject_Z (Z.of_nat (length data))) in
        let confidence := mul (score model X y) (Num 100) in
        Returned {| prediction := Some (Num (Qred next_point));
                    confidence := confidence |}
    end.

(** *** [calculate_advanced_metrics] *)

Record advanced_metrics := {
  takt_adherence_metrics : takt_adherence;
  flow_efficiency_metrics : flow_metrics;
  bottleneck_analysis : list bottleneck;
  variance_trend_metrics : variance_trends;
  predictive_metrics : predictive
}.

(** The five metrics of the frame [get_takt_metrics] returns for the
    window and the project; the query itself runs in the database.  The
    display evaluates its values in order, so an exception of the last
    one is the outcome of the whole. *)
Definition calculate_advanced_metrics (takt_data : DataFrame) : outcome advanced_metrics :=
  let adherence := _calculate_takt_adherence takt_data in
  let flow := _calculate_flow_efficiency takt_data in
  let bottlenecks := _analyze_bottlenecks takt_data in
  let trends := _analyze_variance_trends takt_data in
  match _calculate_predictive_metrics takt_data with
  | Returned predicted =>
      Returned {| takt_adherence_metrics := adherence;
                  flow_efficiency_metrics := flow;
                  bottleneck_analysis := bottlenecks;
                  variance_trend_metrics := trends;
                  predictive_metrics := predicted |}
  | ValueError message => ValueError message
  end.

End TaktDataServiceExt.

(** The sums of the least squares problem over the samples [ps], taken
    around [mx] and [my]. *)
Definition Sxx (mx : Q) (ps : list (Q * Q)) : Q :=
  Qsum (map (fun p => (fst p - mx) * (fst p - mx))%Q ps).



(** The records whose variance is a number. *)
Definition finite_variance (r : TaktDataService.DurationRecord) : Prop :=
  Float.isfinite (TaktDataService.variance r) = true.

(** ** Properties of the store *)

Lemma dict_get_set_eq d k v : dict_get (dict_set d k v) k = Some v.
Proof.
  induction d as [|[k' v'] d IH]; simpl.
  - destruct (decide (k = k)); congruence.
  - destruct (decide (k' = k)) as [->|Hne]; simpl.
    + destruct (decide (k = k)); congruence.
    + destruct (decide (k' = k)); [contradiction | exact IH].
Qed.




Lemma variant_rejects a : is_variant a -> rejects a.
Proof. intros (k & cfg & ->) x h. destruct k; reflexivity. Qed.

Lemma variants_reject peers : Forall is_variant peers -> Forall rejects peers.
Proof. intros H. apply (Forall_impl _ _ _ H), variant_rejects. Qed.

(** One step of a computation, in front of its continuation. *)
Section Steps.
Context {B : Type} (k : val -> M B) (ku : unit -> M B).

Lemma bind_alloc o h : bind (alloc o) k h = k (VRef (length h)) (h ++ [o]).
Proof. reflexivity. Qed.

Lemma bind_copy h l o :
  h !! l = Some o -> bind (copy (VRef l)) k h = k (VRef (length h)) (h ++ [o]).
Proof. intros H. unfold copy, bind, load. rewrite H. reflexivity. Qed.

Lemma bind_getitem h l d key v :
  h !! l = Some (ODict d) -> dict_get d key = Some v ->
  bind (getitem (VRef l) key) k h = k v h.
Proof. intros H Hk. unfold getitem, bind, load. rewrite H, Hk. reflexivity. Qed.

Lemma bind_setitem h l d key v :
  h !! l = Some (ODict d) ->
  bind (setitem (VRef l) key v) ku h = ku tt (<[l := ODict (dict_set d key v)]> h).
Proof. intros H. unfold setitem, bind, load. rewrite H. reflexivity. Qed.

Lemma bind_append h l xs v :
  h !! l = Some (OList xs) ->
  bind (append (VRef l) v) ku h = ku tt (<[l := OList (xs ++ [v])]> h).
Proof. intros H. unfold append, bind, load. rewrite H. reflexivity. Qed.

Lemma bind_validate a x h :
  rejects a -> bind (validate a x) k h = k (VBool false) h.
Proof. intros H. unfold bind. rewrite (H x h). reflexivity. Qed.

End Steps.

Lemma bind_items {B} (k : dict -> M B) h l d :
  h !! l = Some (ODict d) -> bind (items (VRef l)) k h = k d h.
Proof. intros H. unfold items, bind, load. rewrite H. reflexivity. Qed.

Lemma bind_assoc {A B C} (m : M A) (f : A -> M B) (g : B -> M C) h :
  bind (bind m f) g h = bind m (fun x => bind (f x) g) h.
Proof. unfold bind. destruct (m h) as [[a|e] h']; reflexivity. Qed.

Lemma bind_ret_l {A B} (a : A) (k : A -> M B) h : bind (ret a) k h = k a h.
Proof. reflexivity. Qed.

Lemma bind_raised {A B} (m : M A) (k : A -> M B) h e h' :
  m h = (Raise e, h') -> bind m k h = (Raise e, h').
Proof. intros H. unfold bind. rewrite H. reflexivity. Qed.





(** On every context and in every store, [analyze] of each of the six
    classes raises at the first helper its first reasoning step calls
    without the class defining it. *)
Lemma variant_analyze_raises k cfg context h :
  exists m h', analyze (instantiate k cfg) context h = (Raise (AttributeError m), h').
Proof. destruct k; eexists _, _; reflexivity. Qed.

(** *** The store during cross-validation *)

Lemma cv_heap_length h0 d' done :
  length (cv_heap h0 d' done) = S (S (length h0 + length done)).
Proof. unfold cv_heap. rewrite !length_app, length_map. simpl. lia. Qed.

Lemma cv_heap_dict h0 d' done : cv_heap h0 d' done !! length h0 = Some (ODict d').
Proof. unfold cv_heap. rewrite lookup_app_r by lia. rewrite Nat.sub_diag. reflexivity. Qed.

Lemma cv_heap_list h0 d' done :
  cv_heap h0 d' done !! S (length h0)
  = Some (OList (map VRef (seq (S (S (length h0))) (length done)))).
Proof.
  unfold cv_heap. rewrite lookup_app_r by lia.
  replace (S (length h0) - length h0) with 1 by lia. reflexivity.
Qed.

Lemma cv_heap_old h0 d' done l o :
  h0 !! l = Some o -> cv_heap h0 d' done !! l = Some o.
Proof. intros H. unfold cv_heap. apply lookup_app_l_Some. exact H. Qed.

Lemma cv_heap_snoc h0 d' done e :
  <[S (length h0) :=
      OList (map VRef (seq (S (S (length h0))) (length done))
             ++ [VRef (length (cv_heap h0 d' done))])]>
    (cv_heap h0 d' done ++ [ODict e])
  = cv_heap h0 d' (done ++ [e]).
Proof.
  rewrite cv_heap_length. unfold cv_heap.
  rewrite <- ?app_assoc. rewrite insert_app_r_alt by lia.
  replace (S (length h0) - length h0) with 1 by lia. simpl.
  rewrite length_app. simpl. rewrite Nat.add_1_r, seq_S, !map_app. simpl.
  replace (S (S (length h0)) + length done) with (S (S (length h0 + length done))) by lia.
  reflexivity.
Qed.

Lemma cv_heap_start h d d' :
  <[length h := ODict d']> ((h ++ [ODict d]) ++ [OList []]) = cv_heap h d' [].
Proof.
  unfold cv_heap. rewrite <- app_assoc. rewrite insert_app_r_alt by lia.
  rewrite Nat.sub_diag. reflexivity.
Qed.

Lemma cv_loop self analysis peers h0 d' done :
  Forall rejects peers ->
  dict_get d' cvr = Some (VRef (S (length h0))) ->
  for_each peers (cross_validate_step self analysis (VRef (length h0)))
    (cv_heap h0 d' done)
  = (Ok tt, cv_heap h0 d'
       (done ++ map (fun a => cv_entry (name a) (VBool false)) (peers_of self peers))).
Proof.
  intros Hv Hd. revert done. induction Hv as [|a peers Ha Hv IH]; intros done.
  - simpl. unfold ret. rewrite app_nil_r. reflexivity.
  - simpl. unfold peers_of. rewrite filter_cons.
    unfold cross_validate_step at 1.
    destruct (decide (name a <> name self)) as [Hne|Heq].
    + rewrite !bind_assoc.
      rewrite bind_validate by exact Ha.
      rewrite bind_assoc.
      rewrite (bind_getitem _ _ _ _ _ _ (cv_heap_dict _ _ _) Hd).
      rewrite bind_assoc, bind_alloc.
      erewrite bind_append by (apply lookup_app_l_Some, cv_heap_list).
      rewrite cv_heap_snoc, IH, <- app_assoc. reflexivity.
    + rewrite bind_ret_l. apply IH.
Qed.

(** The run of [cross_validate] on a dictionary: the result is a new
    dictionary, and the store grows by it, by the list of results and by
    one entry per peer asked. *)
Lemma cross_validate_run self other_agents l d h :
  Forall rejects other_agents ->
  h !! l = Some (ODict d) ->
  cross_validate self other_agents (VRef l) h
  = (Ok (VRef (length h)),
     cv_heap h (dict_set d cvr (VRef (S (length h))))
       (map (fun a => cv_entry (name a) (VBool false)) (peers_of self other_agents))).
Proof.
  intros Hv Hl. unfold cross_validate.
  rewrite (bind_copy _ _ _ _ Hl).
  unfold new_list. rewrite bind_alloc.
  erewrite bind_setitem.
  2:{ rewrite <- app_assoc. rewrite lookup_app_r by lia. rewrite Nat.sub_diag. reflexivity. }
  rewrite length_app. cbn [length]. rewrite Nat.add_1_r, cv_heap_start.
  unfold bind. rewrite cv_loop by (exact Hv || apply dict_get_set_eq). reflexivity.
Qed.

Lemma read_dicts_lookup h es b :
  (forall i e, es !! i = Some e -> h !! (b + i) = Some (ODict e)) ->
  read_dicts h (map VRef (seq b (length es))) = Some es.
Proof.
  revert b. induction es as [|e es IH]; intros b H; [reflexivity|].
  cbn [length seq map read_dicts].
  pose proof (H 0 e eq_refl) as H0. rewrite Nat.add_0_r in H0. rewrite H0.
  rewrite IH; [reflexivity|].
  intros i e' Hi. replace (S b + i) with (b + S i) by lia. apply H. exact Hi.
Qed.

Lemma cv_block_results h r es :
  cv_block h r es -> cross_validation_results h (VRef r) = Some es.
Proof.
  intros ((d' & Hd & Hget) & Hl & Hes). unfold cross_validation_results.
  rewrite Hd, Hget, Hl. apply read_dicts_lookup, Hes.
Qed.


Lemma cv_heap_block h0 d' es :
  dict_get d' cvr = Some (VRef (S (length h0))) ->
  cv_block (cv_heap h0 d' es) (length h0) es.
Proof.
  intros Hget. split; [|split].
  - exists d'. split; [apply cv_heap_dict | exact Hget].
  - apply cv_heap_list.
  - intros i e Hi. unfold cv_heap.
    rewrite lookup_app_r by lia.
    replace (S (S (length h0)) + i - length h0) with (S (S i)) by lia.
    simpl. rewrite list_lookup_fmap, Hi. reflexivity.
Qed.

Lemma cv_heap_results h0 d' done :
  dict_get d' cvr = Some (VRef (S (length h0))) ->
  cross_validation_results (cv_heap h0 d' done) (VRef (length h0)) = Some done.
Proof. intros Hd. apply cv_block_results, cv_heap_block, Hd. Qed.

(** *** The roster *)










Lemma full_roster_variants getenv : Forall is_variant (map snd (full_roster getenv)).
Proof. repeat constructor; eexists _, _; reflexivity. Qed.

Lemma full_roster_others_variants getenv k :
  Forall is_variant (others (full_roster getenv) k).
Proof.
  apply Forall_forall. intros a Ha.
  apply (proj1 (Forall_forall _ _) (full_roster_variants getenv)).
  unfold others in Ha.
  apply list_elem_of_fmap in Ha as ([k0 a0] & -> & H).
  apply list_elem_of_filter in H as [_ H].
  apply list_elem_of_fmap. exists (k0, a0). split; [reflexivity | exact H].
Qed.



(** *** The loops of the orchestrator *)



(** ** The orchestration engine *)

(** C10.  For each of the six classes and every input, [validate]
    returns [False] and leaves the store alone: its three criteria are
    methods with body [pass], and [all] of three [None] is [False].  So
    every entry [cross_validate] appends for an analysis carries
    [validated = False], whoever the peers of the program are. *)
Theorem validate_always_false (k : agent_key) (cfg : config) (x : val)
    (self : TaktAgent) (other_agents : list TaktAgent) (l : loc) (d : dict) (h : heap)
    (Hpeers : Forall is_variant other_agents)
    (Hdict : h !! l = Some (ODict d)) :
  validate (instantiate k cfg) x h = (Ok (VBool false), h) /\
  Py.all [VNone; VNone; VNone] h = (Ok (VBool false), h) /\
  exists res h' entries,
    cross_validate self other_agents (VRef l) h = (Ok res, h') /\
    cross_validation_results h' res = Some entries /\
    Forall (fun e => dict_get e "validated" = Some (VBool false)) entries.
Proof.
  split; [|split].
  - apply variant_rejects. exists k, cfg. reflexivity.
  - reflexivity.
  - eexists _, _, _.
    split; [exact (cross_validate_run self other_agents l d h (variants_reject _ Hpeers) Hdict)|].
    split.
    + apply cv_heap_results, dict_get_set_eq.
    + apply Forall_map, Forall_forall. intros a _. reflexivity.
Qed.

Lemma validate_always_false_witness :
  validate (instantiate data_analyst (AGENT_CONFIGS env_unset data_analyst))
    (VRef 1) sample_validated = (Ok (VBool false), sample_validated) /\
  Py.all [VNone; VNone; VNone] sample_validated = (Ok (VBool false), sample_validated) /\
  exists res h' entries,
    cross_validate architect (others (full_roster env_unset) "strategy_architect")
      (VRef 1) sample_validated = (Ok res, h') /\
    cross_validation_results h' res = Some entries /\
    Forall (fun e => dict_get e "validated" = Some (VBool false)) entries.
Proof.
  apply (validate_always_false data_analyst (AGENT_CONFIGS env_unset data_analyst)
           (VRef 1) architect (others (full_roster env_unset) "strategy_architect")
           1 sample_analysis sample_validated).
  - apply full_roster_others_variants.
  - reflexivity.
Defined.

(** C6.  [cross_validate] on an analysis held at [l], with peers of the
    program: it returns a new dictionary, at a location other than [l],
    equal to the analysis with [cross_validation_results] set to a new
    list; the analysis at [l] and every other object of the store before
    the call are unchanged after it. *)
Theorem cross_validate_preserves_input (self : TaktAgent) (other_agents : list TaktAgent)
    (l : loc) (d : dict) (h : heap)
    (Hpeers : Forall is_variant other_agents)
    (Hdict : h !! l = Some (ODict d)) :
  exists res h' entries,
    cross_validate self other_agents (VRef l) h = (Ok (VRef res), h') /\
    res <> l /\
    h' !! l = Some (ODict d) /\
    (forall l' o, h !! l' = Some o -> h' !! l' = Some o) /\
    (exists lr, h !! lr = None /\
                h' !! res = Some (ODict (dict_set d cvr (VRef lr)))) /\
    cross_validation_results h' (VRef res) = Some entries.
Proof.
  eexists _, _, _.
  split; [exact (cross_validate_run self other_agents l d h (variants_reject _ Hpeers) Hdict)|].
  split; [apply lookup_lt_Some in Hdict; lia|].
  split; [apply cv_heap_old, Hdict|].
  split; [intros l' o; apply cv_heap_old|].
  split.
  - exists (S (length h)). split; [apply lookup_ge_None; lia | apply cv_heap_dict].
  - apply cv_heap_results, dict_get_set_eq.
Qed.

Lemma cross_validate_preserves_input_witness :
  exists res h' entries,
    cross_validate architect (others (full_roster env_unset) "strategy_architect")
      (VRef 1) sample_validated = (Ok (VRef res), h') /\
    res <> 1 /\
    h' !! 1 = Some (ODict sample_analysis) /\
    (forall l' o, sample_validated !! l' = Some o -> h' !! l' = Some o) /\
    (exists lr, sample_validated !! lr = None /\
                h' !! res = Some (ODict (dict_set sample_analysis cvr (VRef lr)))) /\
    cross_validation_results h' (VRef res) = Some entries.
Proof.
  apply (cross_validate_preserves_input architect
           (others (full_roster env_unset) "strategy_architect")
           1 sample_analysis sample_validated).
  - apply full_roster_others_variants.
  - reflexivity.
Defined.









(** ** The metrics engine *)

Section MetricsFacts.
Import Float TaktDataService.

(** *** Arithmetic *)





Lemma ltb_nan_r x : ltb x NaN = false.
Proof. destruct x; reflexivity. Qed.





(** *** Sums of finite values *)


Lemma dropna_length xs : (length (dropna xs) <= length xs)%nat.
Proof.
  unfold dropna. induction xs as [|x xs IH]; simpl; [lia|].
  destruct (negb (isnan x)); simpl; lia.
Qed.






(** *** Rolling means *)

Lemma window_at_length window values i :
  (length (window_at window values i) <= S i)%nat.
Proof.
  unfold window_at. rewrite length_skipn, length_firstn. lia.
Qed.

Lemma window_mean_short window values i :
  (S i < window)%nat -> window_mean window (window_at window values i) = NaN.
Proof.
  intros H. unfold window_mean.
  pose proof (dropna_length (window_at window values i)).
  pose proof (window_at_length window values i).
  destruct (length (dropna (window_at window values i)) <? window)%nat eqn:E;
    [reflexivity|].
  apply Nat.ltb_ge in E. lia.
Qed.





Lemma rolling_mean_first window x xs :
  (1 < window)%nat -> iloc_first (rolling_mean window (x :: xs)) = NaN.
Proof.
  intros H. unfold iloc_first, rolling_mean. cbn [length seq map hd].
  apply window_mean_short. lia.
Qed.

(** A trend that is not empty is never an improving one: the first entry
    of the rolling mean has no full window behind it. *)
Lemma variance_trend_degrading data :
  data <> [] -> trend (_analyze_variance_trends data) = Degrading.
Proof.
  destruct data as [|r data]; [contradiction|]. intros _.
  unfold _analyze_variance_trends. cbn [is_empty trend map].
  rewrite rolling_mean_first by lia. rewrite ltb_nan_r. reflexivity.
Qed.

(** *** The metrics *)










(** C9 fails on the code: with a record planned at 0 and done in 5, and
    a second one on time, the ratio of the first is [+inf], the standard
    deviation is [NaN], and the stability index is [NaN].  With the first
    record planned at 10 instead, the index is finite. *)
Theorem zero_planned_not_guarded :
  let data := [duration "Foundation" 0 5; duration "Framing" 10 10] in
  let fine := [duration "Foundation" 10 5; duration "Framing" 10 10] in
  variance_ratio data = [PosInf; Num 1] /\
  std (variance_ratio data) = Sqrt NaN /\
  stability_index (_calculate_takt_adherence data) = MinusRoot 100 (Sqrt NaN) 100 /\
  rooted_isnan (stability_index (_calculate_takt_adherence data)) = true /\
  rooted_isfinite (stability_index (_calculate_takt_adherence data)) = false /\
  rooted_isfinite (stability_index (_calculate_takt_adherence fine)) = true.
Proof. repeat split. Qed.

End MetricsFacts.

(** ** Further properties of the orchestration engine *)



(** X1. [chain_of_thought] always returns.  Its result is a new dictionary,
    at a location the store did not have, and every object of the store
    is kept.  The dictionary holds the agent's name and expertise, the
    caller's context (the value itself, not a copy) and
    [cross_validation_needed = True]; its reasoning steps, conclusions and
    recommendations are three new empty lists and its validation a new
    empty dictionary, four objects distinct from each other and from the
    result. *)
Theorem chain_of_thought_record (self_name self_expertise : string) (context : val) (h : heap) :
  exists res h',
    chain_of_thought self_name self_expertise context h = (Ok (VRef res), h') /\
    (forall l o, h !! l = Some o -> h' !! l = Some o) /\
    h !! res = None /\
    item h' (VRef res) "agent_name" = Some (VStr self_name) /\
    item h' (VRef res) "expertise" = Some (VStr self_expertise) /\
    item h' (VRef res) "context" = Some context /\
    item h' (VRef res) "cross_validation_needed" = Some (VBool true) /\
    exists l1 l2 l3 l4,
      item h' (VRef res) "reasoning_steps" = Some (VRef l1) /\
      item h' (VRef res) "conclusions" = Some (VRef l2) /\
      item h' (VRef res) "recommendations" = Some (VRef l3) /\
      item h' (VRef res) "validation" = Some (VRef l4) /\
      NoDup [l1; l2; l3; l4; res] /\
      Forall (fun l => h !! l = None) [l1; l2; l3; l4] /\
      h' !! l1 = Some (OList []) /\ h' !! l2 = Some (OList []) /\
      h' !! l3 = Some (OList []) /\ h' !! l4 = Some (ODict []).
Proof.
  exists (length h + 4),
    (h ++ [OList []; OList []; OList []; ODict [];
           ODict (dict_of [("agent_name", VStr self_name); ("expertise", VStr self_expertise);
                           ("context", context);
                           ("reasoning_steps", VRef (length h));
                           ("conclusions", VRef (length h + 1));
                           ("recommendations", VRef (length h + 2));
                           ("validation", VRef (length h + 3));
                           ("cross_validation_needed", VBool true)])]).
  assert (Hres : forall i o,
            [OList []; OList []; OList []; ODict [];
             ODict (dict_of [("agent_name", VStr self_name); ("expertise", VStr self_expertise);
                           ("context", context);
                           ("reasoning_steps", VRef (length h));
                           ("conclusions", VRef (length h + 1));
                           ("recommendations", VRef (length h + 2));
                           ("validation", VRef (length h + 3));
                           ("cross_validation_needed", VBool true)])] !! i = Some o ->
            (h ++ [OList []; OList []; OList []; ODict [];
             ODict (dict_of [("agent_name", VStr self_name); ("expertise", VStr self_expertise);
                           ("context", context);
                           ("reasoning_steps", VRef (length h));
                           ("conclusions", VRef (length h + 1));
                           ("recommendations", VRef (length h + 2));
                           ("validation", VRef (length h + 3));
                           ("cross_validation_needed", VBool true)])]) !! (length h + i) = Some o).
  { intros i o Hi. rewrite lookup_app_r by lia.
    replace (length h + i - length h) with i by lia. exact Hi. }
  split.
  { unfold chain_of_thought, new_list, new_dict.
    rewrite !bind_alloc. unfold alloc.
    rewrite !length_app. cbn [length]. rewrite <- !app_assoc.
    replace (length h + 1 + 1 + 1 + 1) with (length h + 4) by lia.
    replace (length h + 1 + 1 + 1) with (length h + 3) by lia.
    replace (length h + 1 + 1) with (length h + 2) by lia.
    reflexivity. }
  split; [intros l o Hl; apply lookup_app_l_Some, Hl|].
  split; [apply lookup_ge_None; lia|].
  unfold item. rewrite (Hres 4 _ eq_refl).
  repeat (split; [reflexivity|]).
  exists (length h), (length h + 1), (length h + 2), (length h + 3).
  repeat (split; [reflexivity|]).
  split.
  { repeat (apply NoDup_cons_2; [rewrite ?elem_of_cons, elem_of_nil; lia|]). apply NoDup_nil_2. }
  split.
  { repeat (apply Forall_cons_2; [apply lookup_ge_None; lia|]). apply Forall_nil_2. }
  rewrite <- (Nat.add_0_r (length h)) at 1.
  rewrite (Hres 0 _ eq_refl), (Hres 1 _ eq_refl), (Hres 2 _ eq_refl), (Hres 3 _ eq_refl).
  auto.
Qed.

(** X2. [cross_validate] needs a dictionary.  For an analysis that is
    [None], a boolean, an integer or a string it raises [AttributeError]
    for [copy] and leaves the store as it was.  For a list it copies the
    list, creates the empty list of results and raises [TypeError] when it
    files that list under a string key; no validator has run by then,
    whoever the other agents are. *)
Theorem cross_validate_not_a_dict (self : TaktAgent) (other_agents : list TaktAgent)
    (analysis : val) (h : heap) (xs : list val) (l : loc)
    (Himm : is_immediate analysis)
    (Hlist : h !! l = Some (OList xs)) :
  cross_validate self other_agents analysis h = (Raise (AttributeError "copy"), h) /\
  cross_validate self other_agents (VRef l) h
  = (Raise TypeError, h ++ [OList xs; OList []]).
Proof.
  split.
  - destruct analysis; try contradiction; reflexivity.
  - unfold cross_validate. rewrite (bind_copy _ _ _ _ Hlist).
    unfold new_list. rewrite bind_alloc.
    apply bind_raised. unfold setitem, bind, load.
    replace (((h ++ [OList xs]) ++ [OList []]) !! length h) with (Some (OList xs)).
    + rewrite <- app_assoc. reflexivity.
    + rewrite <- app_assoc. rewrite lookup_app_r by lia.
      rewrite Nat.sub_diag. reflexivity.
Qed.

Lemma cross_validate_not_a_dict_witness :
  cross_validate architect [faulty_validator] VNone sample_validated
  = (Raise (AttributeError "copy"), sample_validated) /\
  cross_validate architect [faulty_validator] (VRef 0) sample_validated
  = (Raise TypeError,
     sample_validated ++ [OList [VStr "Level the crew sizes across zones"]; OList []]).
Proof.
  apply (cross_validate_not_a_dict architect [faulty_validator] VNone sample_validated
           [VStr "Level the crew sizes across zones"] 0).
  - exact I.
  - reflexivity.
Defined.

(** X3. With validators that reject, [cross_validate] of a dictionary
    returns one entry [{validator, validated: False}] for each of the
    other agents whose name differs from the name of [self], in the order
    of the list: never more entries than agents, none in the name of
    [self], and passing [self] along with the others changes nothing. *)
Theorem cross_validate_skips_namesakes (self : TaktAgent) (other_agents : list TaktAgent)
    (l : loc) (d : dict) (h : heap)
    (Hpeers : Forall rejects other_agents)
    (Hdict : h !! l = Some (ODict d)) :
  exists res h' entries,
    cross_validate self other_agents (VRef l) h = (Ok res, h') /\
    cross_validation_results h' res = Some entries /\
    entries = map (fun a => cv_entry (name a) (VBool false)) (peers_of self other_agents) /\
    length entries <= length other_agents /\
    Forall (fun e => dict_get e "validator" <> Some (VStr (name self))) entries /\
    (exists res2 h2,
       cross_validate self (self :: other_agents) (VRef l) h = (Ok res2, h2) /\
       cross_validation_results h2 res2 = Some entries).
Proof.
  eexists _, _, _.
  split; [exact (cross_validate_run self other_agents l d h Hpeers Hdict)|].
  split; [apply cv_heap_results, dict_get_set_eq|].
  split; [reflexivity|].
  split.
  { rewrite length_map. unfold peers_of. apply length_filter. }
  split.
  { apply Forall_map, Forall_forall. intros a Ha.
    apply list_elem_of_filter in Ha as [Hne _]. simpl. congruence. }
  assert (Hself : peers_of self (self :: other_agents) = peers_of self other_agents).
  { unfold peers_of. apply filter_cons_False. tauto. }
  unfold cross_validate at 1.
  rewrite (bind_copy _ _ _ _ Hdict).
  unfold new_list. rewrite bind_alloc.
  erewrite bind_setitem.
  2:{ rewrite <- app_assoc. rewrite lookup_app_r by lia. rewrite Nat.sub_diag. reflexivity. }
  rewrite length_app. cbn [length]. rewrite Nat.add_1_r, cv_heap_start.
  cbn [for_each]. unfold cross_validate_step at 1.
  destruct (decide (name self <> name self)) as [Hne|_]; [contradiction|].
  rewrite bind_assoc, bind_ret_l.
  unfold bind. rewrite cv_loop by (exact Hpeers || apply dict_get_set_eq).
  eexists _, _. split; [reflexivity|].
  apply cv_heap_results, dict_get_set_eq.
Qed.

Lemma cross_validate_skips_namesakes_witness :
  exists res h' entries,
    cross_validate architect (map snd (full_roster env_unset)) (VRef 1) sample_validated
    = (Ok res, h') /\
    cross_validation_results h' res = Some entries /\
    entries = map (fun a => cv_entry (name a) (VBool false))
                (peers_of architect (map snd (full_roster env_unset))) /\
    length entries <= length (map snd (full_roster env_unset)) /\
    Forall (fun e => dict_get e "validator" <> Some (VStr (name architect))) entries /\
    (exists res2 h2,
       cross_validate architect (architect :: map snd (full_roster env_unset))
         (VRef 1) sample_validated = (Ok res2, h2) /\
       cross_validation_results h2 res2 = Some entries).
Proof.
  apply (cross_validate_skips_namesakes architect (map snd (full_roster env_unset))
           1 sample_analysis sample_validated).
  - apply variants_reject, full_roster_variants.
  - reflexivity.
Defined.



(** X5. The [analyze] method of each of the six agent classes raises
    [AttributeError] for the first helper its class does not define
    ([missing_helper]), whatever the configuration, the context and the
    store; what it allocated before stays in the store.  A roster that
    starts with such an agent makes [analyze_project] raise the same
    exception, whatever agents follow. *)
Theorem analyze_aborts (k : agent_key) (cfg : config) (context : val) (h : heap)
    (agent_name : string) (rest : roster) :
  (exists ext,
     analyze (instantiate k cfg) context h
     = (Raise (AttributeError (missing_helper k)), h ++ ext)) /\
  (exists ext,
     analyze_project ((agent_name, instantiate k cfg) :: rest) context h
     = (Raise (AttributeError (missing_helper k)), h ++ ext)).
Proof.
  assert (Hframe : forall h0, exists ext,
            analyze (instantiate k cfg) context h0
            = (Raise (AttributeError (missing_helper k)), h0 ++ ext)).
  { intros h0. destruct k; eexists; cbv -[app length]; rewrite <- ?app_assoc; reflexivity. }
  split; [apply Hframe|].
  destruct (Hframe (h ++ [ODict []])) as (ext & Hraise).
  exists ([ODict []] ++ ext). rewrite app_assoc.
  unfold analyze_project, new_dict. rewrite bind_alloc.
  apply bind_raised. cbn [for_each]. apply bind_raised.
  unfold collect_analysis. apply bind_raised. exact Hraise.
Qed.

(** X6. [_cross_validate_analyses] creates its result dictionary first and
    then fails on what it cannot handle: analyses that are [None], a
    boolean, an integer or a string raise [AttributeError] for [items],
    and a dictionary of analyses whose first key names no agent of the
    roster raises [KeyError] with that key.  In both cases the store has
    gained the empty result dictionary and nothing else. *)
Theorem cross_validation_needs_known_agents (agents : roster) (analyses : val)
    (h : heap) :
  (is_immediate analyses ->
   _cross_validate_analyses agents analyses h
   = (Raise (AttributeError "items"), h ++ [ODict []])) /\
  (forall l agent_name analysis rest,
     analyses = VRef l ->
     h !! l = Some (ODict ((agent_name, analysis) :: rest)) ->
     roster_get agents agent_name = None ->
     _cross_validate_analyses agents analyses h
     = (Raise (KeyError agent_name), h ++ [ODict []])).
Proof.
  split.
  - intros Himm. destruct analyses; try reflexivity. destruct Himm.
  - intros l agent_name analysis rest -> Hl Hnone.
    unfold _cross_validate_analyses, new_dict.
    rewrite bind_alloc.
    rewrite (bind_items _ _ l ((agent_name, analysis) :: rest))
      by (apply lookup_app_l_Some; exact Hl).
    cbn [for_each]. unfold cross_validate_entry. rewrite Hnone. reflexivity.
Qed.

Lemma cross_validation_needs_known_agents_witness :
  _cross_validate_analyses (_initialize_agents env_unset) (VInt 3) []
  = (Raise (AttributeError "items"), [ODict []]) /\
  _cross_validate_analyses (_initialize_agents env_unset) (VRef 0)
    [ODict [("data_analyst", VNone)]]
  = (Raise (KeyError "data_analyst"), [ODict [("data_analyst", VNone)]; ODict []]).
Proof.
  split.
  - apply (proj1 (cross_validation_needs_known_agents _ (VInt 3) [])). exact I.
  - apply (proj2 (cross_validation_needs_known_agents
                    (_initialize_agents env_unset) (VRef 0)
                    [ODict [("data_analyst", VNone)]]) 0%nat "data_analyst" VNone []);
      reflexivity.
Defined.

(** ** Further properties of the metrics engine *)

Section MoreMetrics.
Import Float TaktDataService TaktDataServiceExt.

(** *** Bottlenecks *)

Lemma bottlenecks_filter data :
  _analyze_bottlenecks data = map report (List.filter is_bottleneck data).
Proof. destruct data; reflexivity. Qed.

(** X7. [_analyze_bottlenecks] reports record by record: the report of two
    frames in a row is the two reports in a row; every reported factor is
    above 1.2; the reported work packages are a subsequence of the frame's
    work packages, in the frame's order; a record whose factor is above
    1.2 is reported, with its variance as the impact, and a record whose
    factor is not above 1.2 (also one without a factor, [NaN]) never
    is. *)
Theorem bottlenecks_in_order (data1 data2 : DataFrame) :
  _analyze_bottlenecks (data1 ++ data2)
  = _analyze_bottlenecks data1 ++ _analyze_bottlenecks data2 /\
  Forall (fun b => ltb (Num (12 # 10)) (bottleneck_value b) = true)
    (_analyze_bottlenecks data1) /\
  sublist (map bottleneck_package (_analyze_bottlenecks data1))
          (map work_package data1) /\
  (forall r, r ∈ data1 -> ltb (Num (12 # 10)) (bottleneck_factor r) = true ->
     report r ∈ _analyze_bottlenecks data1) /\
  (forall r, ltb (Num (12 # 10)) (bottleneck_factor r) = false ->
     report r ∉ _analyze_bottlenecks data1).
Proof.
  rewrite !bottlenecks_filter. split; [|split; [|split; [|split]]].
  - rewrite List.filter_app, map_app. reflexivity.
  - apply Forall_map, Forall_forall. intros r Hr.
    apply list_elem_of_In, List.filter_In in Hr as [_ Hr]. exact Hr.
  - induction data1 as [|r data1 IH]; simpl; [constructor|].
    destruct (is_bottleneck r); simpl; [apply sublist_skip | apply sublist_cons]; exact IH.
  - intros r Hr Hb. apply list_elem_of_fmap. exists r. split; [reflexivity|].
    apply list_elem_of_In, List.filter_In. split; [apply list_elem_of_In, Hr | exact Hb].
  - intros r Hlow Hin.
    apply list_elem_of_fmap in Hin as (r' & Heq & Hr').
    apply list_elem_of_In, List.filter_In in Hr' as [_ Hb].
    unfold is_bottleneck in Hb.
    assert (bottleneck_factor r' = bottleneck_factor r) as Hsame.
    { change (bottleneck_value (report r') = bottleneck_value (report r)). congruence. }
    congruence.
Qed.

Lemma bottlenecks_in_order_witness :
  let data := [duration "Foundation" 20 30; duration "Framing" 20 24;
               duration "MEP" 10 13] in
  _analyze_bottlenecks (data ++ data)
  = _analyze_bottlenecks data ++ _analyze_bottlenecks data /\
  map bottleneck_package (_analyze_bottlenecks data) = ["Foundation"; "MEP"] /\
  report (duration "MEP" 10 13) ∈ _analyze_bottlenecks data /\
  report (duration "Framing" 20 24) ∉ _analyze_bottlenecks data.
Proof.
  intros data.
  destruct (bottlenecks_in_order data data) as (Happ & _ & _ & Hin & Hout).
  split; [exact Happ|]. split; [reflexivity|]. split.
  - apply Hin; [|reflexivity]. right. right. left.
  - apply Hout. reflexivity.
Defined.

Lemma ltb_bottleneck_not_adherent x :
  ltb (Num (12 # 10)) x = true -> leb x (Num (11 # 10)) = false.
Proof.
  destruct x as [q| | |]; simpl; try discriminate; try reflexivity.
  intros H. apply negb_true_iff in H.
  destruct (Qle_bool q (11 # 10)) eqn:E; [|reflexivity].
  apply Qle_bool_iff in E.
  assert (Hle : (q <= 12 # 10)%Q).
  { eapply Qle_trans; [exact E|]. unfold Qle. simpl. lia. }
  apply Qle_bool_iff in Hle. congruence.
Qed.

Lemma count_adherent_cons r data :
  count_adherent (r :: data)
  = ((if adherent r then 1 else 0) + count_adherent data)%nat.
Proof. unfold count_adherent. simpl. destruct (adherent r); reflexivity. Qed.

(** X8. When the bottleneck factor of every record is its
    [actual_duration / planned_duration], as the ingestion writes it, no
    record counts both as a bottleneck of [_analyze_bottlenecks] and as
    adherent in [_calculate_takt_adherence]: the adherent records and the
    reported bottlenecks are together at most the records of the
    frame. *)
Theorem bottlenecks_miss_the_pace (data : DataFrame)
    (Hratio : Forall (fun r => bottleneck_factor r
                               = div (actual_duration r) (planned_duration r)) data) :
  (count_adherent data + length (_analyze_bottlenecks data) <= length data)%nat /\
  Forall (fun r => is_bottleneck r = true -> adherent r = false) data.
Proof.
  rewrite bottlenecks_filter, length_map. split.
  - induction Hratio as [|r data Hr _ IH]; [simpl; lia|].
    rewrite count_adherent_cons. simpl.
    destruct (is_bottleneck r) eqn:Hb.
    + unfold is_bottleneck in Hb. rewrite Hr in Hb.
      apply ltb_bottleneck_not_adherent in Hb.
      unfold adherent. rewrite Hb. simpl. lia.
    + destruct (adherent r); simpl; lia.
  - apply (Forall_impl _ _ _ Hratio). intros r Hr Hb.
    unfold is_bottleneck in Hb. rewrite Hr in Hb.
    apply ltb_bottleneck_not_adherent, Hb.
Qed.

Lemma bottlenecks_miss_the_pace_witness :
  let data := [duration "Foundation" 20 30; duration "Framing" 20 24;
               duration "MEP" 10 10] in
  (count_adherent data + length (_analyze_bottlenecks data) <= length data)%nat /\
  Forall (fun r => is_bottleneck r = true -> adherent r = false) data.
Proof.
  intros data. apply bottlenecks_miss_the_pace.
  repeat (apply Forall_cons_2; [reflexivity|]). apply Forall_nil_2.
Defined.

(** *** Adherence *)










Lemma Qsum_nonneg qs : Forall (fun q => 0 <= q)%Q qs -> (0 <= Qsum qs)%Q.
Proof.
  induction 1 as [|q qs Hq _ IH]; simpl; [apply Qle_refl|].
  change 0%Q with (0 + 0)%Q at 1. apply Qplus_le_compat; assumption.
Qed.





(** *** Variance trend *)

(** X12. [_analyze_variance_trends] never reports ['Improving']: the first
    value of the rolling mean over five records is [NaN] for every frame
    that is not empty, the comparison with it is false, and the trend of
    such a frame is ['Degrading'] whatever the variances are. *)
Theorem trend_never_improving (data : DataFrame) :
  trend (_analyze_variance_trends data) <> Improving /\
  (data <> [] ->
     trend (_analyze_variance_trends data) = Degrading /\
     iloc_first (rolling_mean 5 (map variance data)) = NaN).
Proof.
  split.
  - destruct data as [|r data]; [discriminate|].
    rewrite variance_trend_degrading; discriminate.
  - intros Hne. split; [apply variance_trend_degrading, Hne|].
    destruct data as [|r data]; [contradiction|].
    apply rolling_mean_first. lia.
Qed.

(** Variances falling from 10 to 0: the mean of the last window is below
    the mean of every earlier one, and the trend is still [Degrading]. *)
Lemma trend_never_improving_witness :
  let data := [duration "A" 10 20; duration "B" 10 18; duration "C" 10 16;
               duration "D" 10 14; duration "E" 10 12; duration "F" 10 10] in
  pattern (_analyze_variance_trends data)
  = Some [NaN; NaN; NaN; NaN; Num 6; Num 4] /\
  trend (_analyze_variance_trends data) = Degrading /\
  iloc_first (rolling_mean 5 (map variance data)) = NaN.
Proof.
  intros data. split; [reflexivity|].
  apply (proj2 (trend_never_improving data)). discriminate.
Defined.

(** *** Flow efficiency *)

Lemma Qred_eq (x y : Q) : (x == y)%Q -> Qred x = Qred y.
Proof. apply Qred_complete. Qed.









(** *** Units of time *)














(** *** The regression *)

Lemma finite_values_map qs : finite_values (map Num qs) = Some qs.
Proof. induction qs as [|q qs IH]; simpl; [reflexivity|]. rewrite IH. reflexivity. Qed.


Lemma finite_values_all (data : DataFrame) :
  Forall finite_variance data -> exists qs, finite_values (map variance data) = Some qs.
Proof.
  induction 1 as [|r data Hr _ (qs & IH)]; [exists []; reflexivity|].
  unfold finite_variance in Hr. simpl.
  destruct (variance r) as [q| | |]; try discriminate.
  rewrite IH. eexists. reflexivity.
Qed.

Lemma finite_values_none (data : DataFrame) :
  Exists (fun r => ~ finite_variance r) data -> finite_values (map variance data) = None.
Proof.
  induction 1 as [r data Hr|r data _ IH]; simpl.
  - unfold finite_variance in Hr. destruct (variance r); try reflexivity.
    exfalso. apply Hr. reflexivity.
  - rewrite IH. destruct (variance r); reflexivity.
Qed.





Lemma Qsum_squares_of {A} (f : A -> Q) (xs : list A) :
  (0 <= Qsum (map (fun x => f x * f x) xs))%Q.
Proof.
  apply Qsum_nonneg, Forall_map, Forall_forall. intros x _. simpl. nra.
Qed.

Lemma Sxx_nonneg mx ps : (0 <= Sxx mx ps)%Q.
Proof. apply (Qsum_squares_of (fun p => fst p - mx)%Q). Qed.



















(** X18. For a frame of one record with a variance that is a number,
    [_calculate_predictive_metrics] predicts that variance again, and its
    confidence is [NaN]: the score of a regression is not defined for less
    than two samples. *)
Theorem forecast_of_one_record (r : DurationRecord) (q : Q)
    (Hq : variance r = Num q) :
  _calculate_predictive_metrics [r]
  = Returned {| prediction := Some (Num (Qred q)); confidence := NaN |}.
Proof.
  unfold _calculate_predictive_metrics. cbn [is_empty map finite_values length].
  rewrite Hq. cbv zeta. unfold score. cbn [length Nat.ltb Nat.leb mul].
  f_equal. f_equal. f_equal. f_equal. apply Qred_eq.
  unfold predict, fit, Qmean, arange. simpl. field.
Qed.

Lemma forecast_of_one_record_witness :
  _calculate_predictive_metrics [duration "Foundation" 20 26]
  = Returned {| prediction := Some (Num 6); confidence := NaN |}.
Proof.
  apply (forecast_of_one_record (duration "Foundation" 20 26) 6). reflexivity.
Defined.

(** X19. [calculate_advanced_metrics] over the frame of the query: an
    empty frame gives the five default values and no exception; a frame
    whose variances are all numbers gives the results of the five metric
    functions; a frame with one variance that is missing or infinite
    makes the regression refuse its input, and the [ValueError] is the
    outcome of the whole call although the other four metrics are
    defined. *)
Theorem advanced_metrics_outcome (data : DataFrame) :
  calculate_advanced_metrics []
  = Returned {| takt_adherence_metrics :=
                  {| average_adherence := Num 0; stability_index := Plain (Num 0) |};
                flow_efficiency_metrics :=
                  {| flow_efficiency := Num 0; waste_percentage := Num 0 |};
                bottleneck_analysis := [];
                variance_trend_metrics := {| trend := No_data; pattern := None |};
                predictive_metrics := {| prediction := None; confidence := Num 0 |} |} /\
  (Forall finite_variance data ->
   exists predicted,
     _calculate_predictive_metrics data = Returned predicted /\
     calculate_advanced_metrics data
     = Returned {| takt_adherence_metrics := _calculate_takt_adherence data;
                   flow_efficiency_metrics := _calculate_flow_efficiency data;
                   bottleneck_analysis := _analyze_bottlenecks data;
                   variance_trend_metrics := _analyze_variance_trends data;
                   predictive_metrics := predicted |}) /\
  (Exists (fun r => ~ finite_variance r) data ->
   exists message,
     _calculate_predictive_metrics data = ValueError message /\
     calculate_advanced_metrics data = ValueError message).
Proof.
  split; [reflexivity|]. split.
  - intros Hall. unfold calculate_advanced_metrics.
    destruct data as [|r data]; [eexists; split; reflexivity|].
    destruct (finite_values_all _ Hall) as (ys & Hys).
    unfold _calculate_predictive_metrics at 1 2. cbn [is_empty]. rewrite Hys.
    eexists. split; reflexivity.
  - intros Hex. unfold calculate_advanced_metrics.
    destruct data as [|r data]; [inversion Hex|].
    unfold _calculate_predictive_metrics. cbn [is_empty].
    rewrite (finite_values_none _ Hex). eexists. split; reflexivity.
Qed.

Lemma advanced_metrics_outcome_witness :
  let unmeasured := {| timestamp := "2024-01-03 00:00:00"; work_package := "MEP";
                       planned_duration := Num 10; actual_duration := NaN;
                       variance := NaN; bottleneck_factor := NaN |} in
  (exists predicted,
     calculate_advanced_metrics [duration "Foundation" 20 22; duration "Framing" 30 25]
     = Returned {| takt_adherence_metrics :=
                     _calculate_takt_adherence [duration "Foundation" 20 22; duration "Framing" 30 25];
                   flow_efficiency_metrics :=
                     _calculate_flow_efficiency [duration "Foundation" 20 22; duration "Framing" 30 25];
                   bottleneck_analysis := [];
                   variance_trend_metrics :=
                     _analyze_variance_trends [duration "Foundation" 20 22; duration "Framing" 30 25];
                   predictive_metrics := predicted |}) /\
  (exists message,
     calculate_advanced_metrics [duration "Foundation" 20 22; unmeasured]
     = ValueError message).
Proof.
  intros unmeasured. split.
  - destruct (proj1 (proj2 (advanced_metrics_outcome
                              [duration "Foundation" 20 22; duration "Framing" 30 25])))
      as (predicted & _ & Hrun).
    + repeat (apply Forall_cons_2; [reflexivity|]). apply Forall_nil_2.
    + exists predicted. exact Hrun.
  - destruct (proj2 (proj2 (advanced_metrics_outcome
                              [duration "Foundation" 20 22; unmeasured])))
      as (message & _ & Hrun).
    + apply Exists_cons_tl, Exists_cons_hd. discriminate.
    + exists message. exact Hrun.
Defined.
End MoreMetrics.
